(** * pyart.io.auto_read: format sniffing and reader dispatch

    A shallow embedding of [src/pyart/io/auto_read.py] (Python 2: the
    bytes returned by [f.read] and the signature literals are both [str],
    modelled as Rocq strings of 8-bit characters), with the file system and
    the file objects as an explicit world threaded through a state and
    exception monad. *)

From Stdlib Require Import String Ascii.
From stdpp Require Import base gmap strings list.


(** ** Python values, exceptions and the world *)

(** The exceptions that the module or the builtins it calls can raise. *)
Inductive exn : Type :=
  | TypeError (msg : string)
  | IOError (msg : string)
  | ValueError (msg : string)
  | IndexError (msg : string)
  | NameError (msg : string)
  | AttributeError (msg : string)
  | EOFError (msg : string).

Inductive result (A : Type) : Type :=
  | Ok (a : A)
  | Raise (e : exn).
Arguments Ok {A} a.
Arguments Raise {A} e.

(** What lies behind a path: a regular file with its bytes, or a file that
    opens but whose medium fails on every read (EIO). *)
Inductive inode : Type :=
  | RegularFile (bytes : string)
  | FaultyFile.

(** A file object.  [fo_bytes] is the byte stream the object delivers
    ([None]: reading raises IOError), [fo_pos] the read position. *)
Record file_object : Type := FileObject {
  fo_bytes : option string;
  fo_pos : nat;
  fo_closed : bool
}.

(** The argument of [determine_filetype]: a [str], a reference to a file
    object on the heap, or a reference to a [BZ2File] object on the heap
    over data that the bzip2 library rejects, any read of which raises [e]. *)
Inductive pyval : Type :=
  | PyStr (s : string)
  | PyFile (h : nat)
  | PyBZ2File (h : nat) (e : exn).

Record world : Type := World {
  fs : gmap string inode;
  heap : list file_object
}.

Definition M (A : Type) : Type := world → result A * world.

#[global] Instance M_ret : MRet M := λ A a w, (Ok a, w).
#[global] Instance M_bind : MBind M := λ A B k m w,
  match m w with
  | (Ok a, w') => k a w'
  | (Raise e, w') => (Raise e, w')
  end.

Definition raise {A : Type} (e : exn) : M A := λ w, (Raise e, w).

Definition lift {A : Type} (r : result A) : M A := λ w, (r, w).

(** [try: body  except TypeError: handler] *)
Definition try_except_TypeError {A : Type} (body handler : M A) : M A := λ w,
  match body w with
  | (Raise (TypeError _), w') => handler w'
  | r => r
  end.

(** ** Builtins *)

Definition inode_bytes (n : inode) : option string :=
  match n with
  | RegularFile bytes => Some bytes
  | FaultyFile => None
  end.

(** Whether a [str] holds a NUL byte. *)
Fixpoint has_nul (s : string) : bool :=
  match s with
  | EmptyString => false
  | String c rest => Ascii.eqb c "000" || has_nul rest
  end.

(** [open(filename, 'rb')]: a non-string argument raises TypeError, and so
    does a [str] with a NUL byte; a path that names no file raises IOError;
    otherwise a fresh file object is allocated.  No name of a file system
    holds a NUL byte, so a path that names a file is looked up first. *)
Definition open_rb (filename : pyval) : M pyval := λ w,
  match filename with
  | PyFile _ | PyBZ2File _ _ =>
      (Raise (TypeError "coercing to Unicode: need string or buffer, file found"), w)
  | PyStr path =>
      match fs w !! path with
      | None =>
          if has_nul path
          then (Raise (TypeError
                         "file() argument 1 must be encoded string without NULL bytes, not str"),
                w)
          else (Raise (IOError "No such file or directory"), w)
      | Some n =>
          (Ok (PyFile (length (heap w))),
           World (fs w) (heap w ++ [FileObject (inode_bytes n) 0 false]))
      end
  end.

(** Python slicing [s[i:j]] on a [str]: clamped at the end of the string. *)
Definition slice (i j : nat) (s : string) : string := substring i (j - i) s.

(** Python indexing [s[0]] on a [str]: a one-character [str], or IndexError. *)
Definition getitem0 (s : string) : result string :=
  match s with
  | EmptyString => Raise (IndexError "string index out of range")
  | String c _ => Ok (String c EmptyString)
  end.

(** [f.read(n)] *)
Definition file_read (f : pyval) (n : nat) : M string := λ w,
  match f with
  | PyStr _ => (Raise (AttributeError "'str' object has no attribute 'read'"), w)
  | PyFile h =>
      match heap w !! h with
      | None => (Raise (ValueError "I/O operation on closed file"), w)
      | Some o =>
          if fo_closed o
          then (Raise (ValueError "I/O operation on closed file"), w)
          else match fo_bytes o with
               | None => (Raise (IOError "Input/output error"), w)
               | Some bytes =>
                   (Ok (slice (fo_pos o) (fo_pos o + n) bytes),
                    World (fs w)
                      (<[h := FileObject (fo_bytes o)
                                (fo_pos o + String.length (slice (fo_pos o) (fo_pos o + n) bytes))
                                false]> (heap w)))
               end
      end
  | PyBZ2File h e =>
      match heap w !! h with
      | None => (Raise (ValueError "I/O operation on closed file"), w)
      | Some o =>
          if fo_closed o
          then (Raise (ValueError "I/O operation on closed file"), w)
          else (Raise e, w)
      end
  end.

(** [f.close()] *)
Definition file_close (f : pyval) : M unit := λ w,
  match f with
  | PyStr _ => (Raise (AttributeError "'str' object has no attribute 'close'"), w)
  | PyFile h | PyBZ2File h _ =>
      match heap w !! h with
      | None => (Ok tt, w)
      | Some o =>
          (Ok tt, World (fs w) (<[h := FileObject (fo_bytes o) (fo_pos o) true]> (heap w)))
      end
  end.

(** Builds a [str] from its byte values. *)
Definition bytes_of (l : list nat) : string :=
  string_of_list_ascii (map ascii_of_nat l).

(** ** [determine_filetype] *)

(** Lines 146-152: read the first 12 bytes from the file. *)
Definition read_first_bytes (filename : pyval) : M string :=
  f ← try_except_TypeError (open_rb filename) (mret filename);
  begin ← file_read f 12;
  file_close f;;
  mret begin.

Definition mdv_signature : string := bytes_of [0; 0; 3; 248; 0; 0; 55; 62; 0; 0; 0; 1].
Definition hdf5_signature : string := bytes_of [137; 72; 68; 70; 13; 10; 26; 10].
Definition hdf4_signature : string := bytes_of [14; 3; 19; 1].
Definition sigmet_signature : string := bytes_of [27].
Definition bzip2_signature : string := "BZh".

(** Lines 154-215: the chain of signature tests on the bytes read. *)
Definition match_signature (begin : string) : result string :=
  if String.eqb (slice 0 12 begin) mdv_signature then Ok "MDV"
  else if String.eqb (slice 0 3 begin) "CDF" then Ok "NETCDF3"
  else if String.eqb (slice 0 8 begin) hdf5_signature then Ok "NETCDF4"
  else if String.eqb (slice 0 9 begin) "ARCHIVE2." || String.eqb (slice 0 7 begin) "AR2V000"
  then Ok "WSR88D"
  else if String.eqb (slice 0 2 begin) "UF" || String.eqb (slice 2 4 begin) "UF"
          || String.eqb (slice 4 6 begin) "UF"
  then Ok "UF"
  else if String.eqb (slice 0 4 begin) "SSWB" || String.eqb (slice 0 4 begin) "VOLD"
          || String.eqb (slice 0 4 begin) "COMM"
  then Ok "DORADE"
  else if String.eqb (slice 4 11 begin) "SUNRISE" then Ok "LASSEN"
  else if String.eqb (slice 0 3 begin) "RSL" then Ok "RSL"
  else if String.eqb (slice 0 4 begin) hdf4_signature then Ok "HDF4"
  else match getitem0 begin with
       | Raise e => Raise e
       | Ok b0 =>
           if String.eqb b0 sigmet_signature then Ok "SIGMET"
           else if String.eqb (slice 0 3 begin) bzip2_signature then Ok "BZ2"
           else Ok "UNKNOWN"
       end.

Definition determine_filetype (filename : pyval) : M string :=
  begin ← read_first_bytes filename;
  lift (match_signature begin).

(** ** The dispatcher [read] *)

(** What the module imports: the optional-dependency flag of the package,
    the format readers, and the parts of [netCDF4] and [bz2] that [read]
    uses.  [rsl_read_rsl] is [read_rsl] of [pyart.io.rsl]; the module binds
    the name only when [_RSL_AVAILABLE] holds (lines 19-21). *)
Class Imports (Radar Kwargs Dataset : Type) : Type := {
  _RSL_AVAILABLE : bool;
  rsl_read_rsl : string → Kwargs → M Radar;
  read_mdv : string → Kwargs → M Radar;
  read_cfradial : string → Kwargs → M Radar;
  read_sigmet : string → Kwargs → M Radar;
  read_nexrad_archive : string → Kwargs → M Radar;
  read_nexrad_cdm : string → Kwargs → M Radar;
  netCDF4_Dataset : string → M Dataset;
  ncattrs : Dataset → list string;
  bz2_decompress : string → result string
}.

Section Dispatcher.
Context {Radar Kwargs Dataset : Type} {imports : Imports Radar Kwargs Dataset}.

(** Evaluating the global name [read_rsl]: bound by the conditional
    import of lines 20-21, unbound otherwise. *)
Definition read_rsl : M (string → Kwargs → M Radar) :=
  if _RSL_AVAILABLE then mret rsl_read_rsl
  else raise (NameError "global name 'read_rsl' is not defined").

(** [bz2.BZ2File(filename)]: a fresh object over the file.  When the
    library decompresses the data, the object delivers the decompressed
    bytes; when it rejects the data with [e] (IOError for an invalid stream,
    EOFError for one cut short), every read of the object raises [e]; over a
    file whose medium fails, reading raises the IOError of the medium. *)
Definition BZ2File (filename : string) : M pyval := λ w,
  match fs w !! filename with
  | None => (Raise (IOError "No such file or directory"), w)
  | Some n =>
      match inode_bytes n with
      | None =>
          (Ok (PyFile (length (heap w))),
           World (fs w) (heap w ++ [FileObject None 0 false]))
      | Some bytes =>
          match bz2_decompress bytes with
          | Ok content =>
              (Ok (PyFile (length (heap w))),
               World (fs w) (heap w ++ [FileObject (Some content) 0 false]))
          | Raise e =>
              (Ok (PyBZ2File (length (heap w)) e),
               World (fs w) (heap w ++ [FileObject None 0 false]))
          end
      end
  end.

(** Lines 81-105: the choice of the reader from the file type. *)
Definition dispatch (filename : string) (use_rsl : bool) (kwargs : Kwargs)
    (filetype : string) : M Radar :=
  if String.eqb filetype "MDV" then read_mdv filename kwargs
  else if String.eqb filetype "NETCDF3" || String.eqb filetype "NETCDF4" then
    dset ← netCDF4_Dataset filename;
    if bool_decide ("cdm_data_type" ∈ ncattrs dset)
    then read_nexrad_cdm filename kwargs
    else read_cfradial filename kwargs
  else if String.eqb filetype "WSR88D" then read_nexrad_archive filename kwargs
  else if String.eqb filetype "SIGMET" then
    if use_rsl
    then f ← read_rsl; f filename kwargs
    else read_sigmet filename kwargs
  else
    let rsl_formats := ["UF"; "HDF4"; "RSL"; "DORAD"; "LASSEN"] in
    if bool_decide (filetype ∈ rsl_formats) && _RSL_AVAILABLE
    then f ← read_rsl; f filename kwargs
    else raise (TypeError
                  (String.append "Unknown or unsupported file format: " filetype)).

(** Lines 75-79 followed by the dispatch. *)
Definition read (filename : string) (use_rsl : bool) (kwargs : Kwargs) : M Radar :=
  filetype ← determine_filetype (PyStr filename);
  filetype ← (if String.eqb filetype "BZ2"
              then f ← BZ2File filename; determine_filetype f
              else mret filetype);
  dispatch filename use_rsl kwargs filetype.

(** [detected filename w filetype w1]: lines 75-79 leave [filetype] in the
    variable of that name and the world [w1], either from the file itself
    or, behind a BZ2 label, from its decompressed stream. *)
Definition detected (filename : string) (w : world) (filetype : string)
    (w1 : world) : Prop :=
  (determine_filetype (PyStr filename) w = (Ok filetype, w1) ∧ filetype ≠ "BZ2") ∨
  (∃ w' f w'',
      determine_filetype (PyStr filename) w = (Ok "BZ2", w') ∧
      BZ2File filename w' = (Ok f, w'') ∧
      determine_filetype f w'' = (Ok filetype, w1)).
End Dispatcher.

(** ** The signature table as the specification words it *)

(** The ordered (matcher, label) pairs of the specification, section 4.1. *)
Definition signature_table : list ((string → bool) * string) :=
  [ (λ b, String.eqb (slice 0 12 b) mdv_signature, "MDV");
    (λ b, String.eqb (slice 0 3 b) "CDF", "NETCDF3");
    (λ b, String.eqb (slice 0 8 b) hdf5_signature, "NETCDF4");
    (λ b, String.eqb (slice 0 9 b) "ARCHIVE2." || String.eqb (slice 0 7 b) "AR2V000",
     "WSR88D");
    (λ b, String.eqb (slice 0 2 b) "UF" || String.eqb (slice 2 4 b) "UF"
          || String.eqb (slice 4 6 b) "UF", "UF");
    (λ b, String.eqb (slice 0 4 b) "SSWB" || String.eqb (slice 0 4 b) "VOLD"
          || String.eqb (slice 0 4 b) "COMM", "DORADE");
    (λ b, String.eqb (slice 4 11 b) "SUNRISE", "LASSEN");
    (λ b, String.eqb (slice 0 3 b) "RSL", "RSL");
    (λ b, String.eqb (slice 0 4 b) hdf4_signature, "HDF4");
    (λ b, String.eqb (slice 0 1 b) sigmet_signature, "SIGMET");
    (λ b, String.eqb (slice 0 3 b) "BZh", "BZ2") ].

(** Consulted top to bottom, first match wins, [UNKNOWN] by default. *)
Fixpoint first_match (table : list ((string → bool) * string)) (b : string) : string :=
  match table with
  | [] => "UNKNOWN"
  | (matches, label) :: rest => if matches b then label else first_match rest b
  end.

(** The precedence order of the labels. *)
Definition label_order : list string :=
  ["MDV"; "NETCDF3"; "NETCDF4"; "WSR88D"; "UF"; "DORADE"; "LASSEN"; "RSL"; "HDF4";
   "SIGMET"; "BZ2"; "UNKNOWN"].

(** ** Concrete environments and worlds *)

(** Readers that return a record of their own call, so that the reader
    chosen and the arguments it received can be read off the result. *)
Record call : Type := Call {
  callee : string;
  call_filename : string;
  call_kwargs : list (string * string)
}.

Definition recording (name : string) (filename : string)
    (kwargs : list (string * string)) : M call :=
  mret (Call name filename kwargs).

(** An environment over [recording] readers; a dataset is the list of its
    global attributes, and the stand-in for bzip2 strips a 4-byte header. *)
Definition demo_imports (rsl_available : bool) : Imports call (list (string * string)) (list string) := {|
  _RSL_AVAILABLE := rsl_available;
  rsl_read_rsl := recording "read_rsl";
  read_mdv := recording "read_mdv";
  read_cfradial := recording "read_cfradial";
  read_sigmet := recording "read_sigmet";
  read_nexrad_archive := recording "read_nexrad_archive";
  read_nexrad_cdm := recording "read_nexrad_cdm";
  netCDF4_Dataset := λ filename,
    if String.eqb filename "cdm.nc" then mret ["Conventions"; "cdm_data_type"]
    else mret ["Conventions"];
  ncattrs := λ dset, dset;
  bz2_decompress := λ bytes,
    if String.eqb (slice 0 3 bytes) "BZh" then Ok (slice 4 (String.length bytes) bytes)
    else Raise (IOError "invalid data stream")
|}.

Definition demo_kwargs : list (string * string) := [("file_field_names", "True")].

Definition demo_fs : gmap string inode :=
  {[ "swp.dorade" := RegularFile "SSWB0000000000000000";
     "vol.uf" := RegularFile "UF0000000000000000";
     "empty.dat" := RegularFile "";
     "noise.dat" := RegularFile "0123456789abcdef";
     "faulty.dat" := FaultyFile;
     "cf.nc" := RegularFile "CDF0000000000000";
     "cdm.nc" := RegularFile (String.append hdf5_signature "0000000000");
     "cf.nc.bz2" := RegularFile "BZh9CDF0000000000000";
     "vol.sigmet" := RegularFile (String.append sigmet_signature "0000000000000000");
     "vol2.sigmet" := RegularFile (String.append sigmet_signature "1111111111111111");
     "vol3.sigmet" := RegularFile (String.append sigmet_signature "2222222222222222");
     "rsl.dat" := RegularFile "RSL0UF0000000";
     "plain.rsl" := RegularFile "RSL v1.44 radar" ]}.

Definition demo_world : world := World demo_fs [].

(** A world in which the caller holds one open file object. *)
Definition handle_world : world :=
  World demo_fs [FileObject (Some "CDF0000000000000") 0 false].

(** Files for the edge cases of sniffing and of the bzip2 pass. *)
Definition edge_fs : gmap string inode :=
  {[ "one.dat" := RegularFile "x";
     "esc.dat" := RegularFile sigmet_signature;
     "a.mdv" := RegularFile (String.append mdv_signature "0000");
     "a.mdv.bz2" := RegularFile (String.append "BZh9" (String.append mdv_signature "0000"));
     "ar2v.dat" := RegularFile "AR2V0006.001 volume";
     "twice.bz2" := RegularFile "BZh9BZh9CDF000000000";
     "once.bz2" := RegularFile "BZh9not a stream";
     "long.dat" := RegularFile "0123456789abXXXX";
     "longer.dat" := RegularFile "0123456789abYYYYYYY";
     "cdf_uf.dat" := RegularFile "CDF0UF000000";
     "sswb_uf.dat" := RegularFile "SSWBUF000000";
     "hdf4.dat" := RegularFile (String.append hdf4_signature "00000000");
     "vol.lassen" := RegularFile "0000SUNRISE0" ]}.

Definition edge_world : world := World edge_fs [].

(** A world in which the caller holds a file object already read to its
    end. *)
Definition consumed_world : world :=
  World edge_fs [FileObject (Some "CDF0000000000000") 16 false].

(** An environment whose bzip2 library finds every stream cut short. *)
Definition corrupt_bz2_imports : Imports call (list (string * string)) (list string) := {|
  _RSL_AVAILABLE := false;
  rsl_read_rsl := recording "read_rsl";
  read_mdv := recording "read_mdv";
  read_cfradial := recording "read_cfradial";
  read_sigmet := recording "read_sigmet";
  read_nexrad_archive := recording "read_nexrad_archive";
  read_nexrad_cdm := recording "read_nexrad_cdm";
  netCDF4_Dataset := λ filename, mret ["Conventions"];
  ncattrs := λ dset, dset;
  bz2_decompress := λ bytes,
    Raise (EOFError "compressed file ended before the logical end-of-stream was detected")
|}.

(** * Properties *)

(** ** The file-object prelude of [determine_filetype] *)

Lemma heap_lookup_fresh (hp : list file_object) (o : file_object) :
  (hp ++ [o]) !! length hp = Some o.
Proof. by rewrite lookup_app_r, Nat.sub_diag by lia. Qed.

Lemma heap_insert_fresh (hp : list file_object) (o o' : file_object) :
  <[length hp := o']> (hp ++ [o]) = hp ++ [o'].
Proof. by rewrite insert_app_r_alt, Nat.sub_diag by lia. Qed.

(** A path that names no file: [open] raises IOError and nothing is
    allocated; when the path holds a NUL byte, [open] raises TypeError
    instead, the handler binds the [str] itself, and [f.read] raises
    AttributeError. *)
Lemma read_first_bytes_missing (w : world) (path : string) :
  fs w !! path = None →
  read_first_bytes (PyStr path) w =
    (Raise (if has_nul path
            then AttributeError "'str' object has no attribute 'read'"
            else IOError "No such file or directory"), w).
Proof.
  intros Hnone.
  unfold read_first_bytes, mbind, M_bind, mret, M_ret, try_except_TypeError, open_rb,
    file_read.
  rewrite Hnone. by destruct (has_nul path).
Qed.

(** A regular file: its first 12 bytes are returned and the file object
    that was opened for it is closed. *)
Lemma read_first_bytes_regular (w : world) (path bytes : string) :
  fs w !! path = Some (RegularFile bytes) →
  read_first_bytes (PyStr path) w =
    (Ok (slice 0 12 bytes),
     World (fs w)
       (heap w ++ [FileObject (Some bytes) (String.length (slice 0 12 bytes)) true])).
Proof.
  intros Hsome.
  unfold read_first_bytes, mbind, M_bind, mret, M_ret, try_except_TypeError, open_rb,
    file_read, file_close.
  rewrite Hsome. cbn [heap fs inode_bytes].
  rewrite heap_lookup_fresh. cbn [fo_closed fo_bytes fo_pos heap fs].
  rewrite heap_insert_fresh, heap_lookup_fresh. cbn [fo_closed fo_bytes fo_pos heap fs].
  by rewrite heap_insert_fresh.
Qed.

(** A file whose medium fails: [read] raises before [close] is reached. *)
Lemma read_first_bytes_faulty (w : world) (path : string) :
  fs w !! path = Some FaultyFile →
  read_first_bytes (PyStr path) w =
    (Raise (IOError "Input/output error"),
     World (fs w) (heap w ++ [FileObject None 0 false])).
Proof.
  intros Hsome.
  unfold read_first_bytes, mbind, M_bind, mret, M_ret, try_except_TypeError, open_rb,
    file_read.
  rewrite Hsome. cbn [heap fs inode_bytes].
  by rewrite heap_lookup_fresh.
Qed.

(** A file object handed in by the caller: [open] raises TypeError, the
    handler takes the object itself, reads from it and closes it. *)
Lemma read_first_bytes_handle (w : world) (h : nat) (o : file_object) (bytes : string) :
  heap w !! h = Some o →
  fo_closed o = false →
  fo_bytes o = Some bytes →
  read_first_bytes (PyFile h) w =
    (Ok (slice (fo_pos o) (fo_pos o + 12) bytes),
     World (fs w)
       (<[h := FileObject (Some bytes)
                 (fo_pos o + String.length (slice (fo_pos o) (fo_pos o + 12) bytes))
                 true]> (heap w))).
Proof.
  intros Hh Hopen Hbytes.
  unfold read_first_bytes, mbind, M_bind, mret, M_ret, try_except_TypeError, open_rb,
    file_read, file_close.
  rewrite Hh, Hopen, Hbytes. cbn [heap fs].
  rewrite list_lookup_insert_eq by (by eapply lookup_lt_Some).
  cbn [fo_closed fo_bytes fo_pos]. by rewrite list_insert_insert_eq.
Qed.

Lemma read_first_bytes_handle_faulty (w : world) (h : nat) (o : file_object) :
  heap w !! h = Some o →
  fo_closed o = false →
  fo_bytes o = None →
  read_first_bytes (PyFile h) w = (Raise (IOError "Input/output error"), w).
Proof.
  intros Hh Hopen Hbytes.
  unfold read_first_bytes, mbind, M_bind, mret, M_ret, try_except_TypeError, open_rb,
    file_read.
  by rewrite Hh, Hopen, Hbytes.
Qed.

Lemma determine_filetype_unfold (filename : pyval) (w : world) :
  determine_filetype filename w =
    match read_first_bytes filename w with
    | (Ok begin, w') => (match_signature begin, w')
    | (Raise e, w') => (Raise e, w')
    end.
Proof. reflexivity. Qed.

(** ** Signature matching *)

Lemma slice_0_1_cons (c : ascii) (s : string) :
  slice 0 1 (String c s) = String c EmptyString.
Proof. unfold slice. cbn. by destruct s. Qed.

(** On a non-empty prefix the chain of tests is the table lookup. *)
Lemma match_signature_first_match (begin : string) :
  begin ≠ EmptyString →
  match_signature begin = Ok (first_match signature_table begin).
Proof.
  destruct begin as [|c s]; [done|]. intros _.
  unfold match_signature, signature_table, bzip2_signature. cbn [first_match getitem0].
  rewrite slice_0_1_cons.
  repeat (case_match; try reflexivity).
Qed.

(** The label returned by [first_match] is that of the first entry that
    matches. *)
Lemma first_match_least (table : list ((string → bool) * string)) (b : string) :
  ∀ i matches label,
    table !! i = Some (matches, label) → matches b = true →
    ∃ j matches' label',
      j ≤ i ∧ table !! j = Some (matches', label') ∧ matches' b = true ∧
      (∀ k e, k < j → table !! k = Some e → e.1 b = false) ∧
      first_match table b = label'.
Proof.
  induction table as [|[m l] rest IH]; intros i matches label Hi Hm; [done|].
  cbn [first_match]. destruct (m b) eqn:Hmb.
  - exists 0, m, l. repeat split; [lia | done | intros k e Hk; lia].
  - destruct i as [|i]; [cbn in Hi; congruence|].
    destruct (IH i matches label Hi Hm) as (j & m' & l' & Hle & Hj & Hm' & Hbefore & Hres).
    exists (S j), m', l'. repeat split; [lia | done | done | | done].
    intros [|k] e Hk He; [cbn in He; by simplify_eq|].
    apply (Hbefore k); [lia | done].
Qed.

Lemma first_match_default (table : list ((string → bool) * string)) (b : string) :
  (∀ e, e ∈ table → e.1 b = false) → first_match table b = "UNKNOWN".
Proof.
  induction table as [|[m l] rest IH]; intros Hall; [done|].
  cbn [first_match]. pose proof (Hall (m, l) ltac:(left)) as Hm. cbn in Hm. rewrite Hm.
  apply IH. intros e He. apply Hall. by right.
Qed.

Lemma string_length_nonempty (s : string) (n : nat) :
  String.length s = S n → s ≠ EmptyString.
Proof. by destruct s. Qed.

(** A prefix that starts with "RSL" is classified as RSL unless one of the
    two earlier patterns that look past byte 3 matches. *)
Lemma first_match_RSL_prefix (begin : string) :
  slice 0 3 begin = "RSL" →
  first_match signature_table begin =
    if String.eqb (slice 4 6 begin) "UF" then "UF"
    else if String.eqb (slice 4 11 begin) "SUNRISE" then "LASSEN"
    else "RSL".
Proof.
  intros Hrsl.
  destruct begin as [|a [|b [|c rest]]]; try discriminate.
  assert (a = "R"%char ∧ b = "S"%char ∧ c = "L"%char) as (-> & -> & ->).
  { unfold slice in Hrsl. cbn in Hrsl. by simplify_eq. }
  unfold signature_table. cbn [first_match].
  change (String.eqb (slice 0 12 (String "R" (String "S" (String "L" rest)))) mdv_signature)
    with false.
  change (String.eqb (slice 0 3 (String "R" (String "S" (String "L" rest)))) "CDF")
    with false.
  change (String.eqb (slice 0 8 (String "R" (String "S" (String "L" rest)))) hdf5_signature)
    with false.
  change (String.eqb (slice 0 9 (String "R" (String "S" (String "L" rest)))) "ARCHIVE2.")
    with false.
  change (String.eqb (slice 0 7 (String "R" (String "S" (String "L" rest)))) "AR2V000")
    with false.
  change (String.eqb (slice 0 2 (String "R" (String "S" (String "L" rest)))) "UF")
    with false.
  change (String.eqb (slice 2 4 (String "R" (String "S" (String "L" rest)))) "UF")
    with false.
  change (String.eqb (slice 0 4 (String "R" (String "S" (String "L" rest)))) "SSWB")
    with false.
  change (String.eqb (slice 0 4 (String "R" (String "S" (String "L" rest)))) "VOLD")
    with false.
  change (String.eqb (slice 0 4 (String "R" (String "S" (String "L" rest)))) "COMM")
    with false.
  rewrite Hrsl. cbn [orb].
  destruct (String.eqb (slice 4 6 _) "UF"); [done|].
  by destruct (String.eqb (slice 4 11 _) "SUNRISE").
Qed.

(** A non-empty prefix never makes the chain of tests raise. *)
Lemma match_signature_nonempty_total (begin : string) :
  begin ≠ EmptyString →
  ∃ label, match_signature begin = Ok label ∧
           (label = "UNKNOWN" ↔ first_match signature_table begin = "UNKNOWN").
Proof.
  intros Hne. exists (first_match signature_table begin).
  by rewrite match_signature_first_match.
Qed.

(** ** Claims on [determine_filetype] *)

(** C2, as stated, fails: a file object handed in by the caller and still
    open before the call is closed when [determine_filetype] returns. *)
Lemma determine_filetype_closes_callers_handle :
  fo_closed <$> heap handle_world !! 0 = Some false ∧
  ∃ w', determine_filetype (PyFile 0) handle_world = (Ok "NETCDF3", w') ∧
        fo_closed <$> heap w' !! 0 = Some true.
Proof.
  split; [reflexivity|].
  exists (World demo_fs [FileObject (Some "CDF0000000000000") 12 true]).
  split; [vm_compute|]; reflexivity.
Qed.

(** C2, amended: for every open file object handed to [determine_filetype]
    whose read succeeds, the sniffer uses the object directly (no file
    object is allocated, the file system is untouched, and the label is
    computed from the 12 bytes at the object's own read position) and then
    closes it; no other file object changes. *)
Theorem determine_filetype_given_handle
    (w : world) (h : nat) (o : file_object) (bytes : string) :
  heap w !! h = Some o →
  fo_closed o = false →
  fo_bytes o = Some bytes →
  ∃ w',
    determine_filetype (PyFile h) w =
      (match_signature (slice (fo_pos o) (fo_pos o + 12) bytes), w') ∧
    fs w' = fs w ∧
    length (heap w') = length (heap w) ∧
    fo_closed <$> heap w' !! h = Some true ∧
    ∀ h', h' ≠ h → heap w' !! h' = heap w !! h'.
Proof.
  intros Hh Hopen Hbytes. eexists.
  rewrite determine_filetype_unfold, (read_first_bytes_handle w h o bytes) by done.
  split; [reflexivity|]. cbn [fs heap].
  split; [reflexivity|]. split; [by rewrite length_insert|].
  split.
  - rewrite list_lookup_insert_eq; [done|]. by eapply lookup_lt_Some.
  - intros h' Hne. by rewrite list_lookup_insert_ne.
Qed.

Lemma determine_filetype_given_handle_witness :
  ∃ w',
    determine_filetype (PyFile 0) handle_world =
      (match_signature (slice 0 (0 + 12) "CDF0000000000000"), w') ∧
    fs w' = fs handle_world ∧
    length (heap w') = length (heap handle_world) ∧
    fo_closed <$> heap w' !! 0 = Some true ∧
    ∀ h', h' ≠ 0 → heap w' !! h' = heap handle_world !! h'.
Proof.
  apply (determine_filetype_given_handle handle_world 0
           (FileObject (Some "CDF0000000000000") 0 false) "CDF0000000000000");
    reflexivity.
Defined.

(** C3, as stated, fails: when reading the first bytes raises, the error
    leaves [determine_filetype] with the file object it opened still open. *)
Lemma determine_filetype_read_error_leaves_open :
  determine_filetype (PyStr "faulty.dat") demo_world =
    (Raise (IOError "Input/output error"),
     World demo_fs [FileObject None 0 false]).
Proof. vm_compute. reflexivity. Qed.

(** C3, amended: for every path-backed call that opens its file, exactly one
    file object is allocated; when reading the first bytes succeeds that
    object is closed before any signature is tested, hence before the
    sniffer returns a label or propagates an error, and when reading raises
    the error propagates with the object still open. *)
Theorem determine_filetype_closes_opened_handle
    (w : world) (path : string) (n : inode) :
  fs w !! path = Some n →
  ∃ r o,
    determine_filetype (PyStr path) w = (r, World (fs w) (heap w ++ [o])) ∧
    match n with
    | RegularFile bytes =>
        fo_closed o = true ∧ r = match_signature (slice 0 12 bytes)
    | FaultyFile =>
        fo_closed o = false ∧ r = Raise (IOError "Input/output error")
    end.
Proof.
  intros Hpath. rewrite determine_filetype_unfold. destruct n as [bytes|].
  - rewrite (read_first_bytes_regular w path bytes) by done.
    by eexists _, _.
  - rewrite (read_first_bytes_faulty w path) by done.
    by eexists _, _.
Qed.

Lemma determine_filetype_closes_opened_handle_witness :
  ∃ r o,
    determine_filetype (PyStr "noise.dat") demo_world =
      (r, World (fs demo_world) (heap demo_world ++ [o])) ∧
    fo_closed o = true ∧ r = match_signature (slice 0 12 "0123456789abcdef").
Proof.
  apply (determine_filetype_closes_opened_handle demo_world "noise.dat"
           (RegularFile "0123456789abcdef")).
  vm_compute. reflexivity.
Defined.

(** C4 fails on the empty file: no slice test matches, and the SIGMET test
    indexes byte 0 of the empty prefix, which raises IndexError instead of
    returning UNKNOWN. *)
Theorem determine_filetype_empty_file (w : world) (path : string) :
  fs w !! path = Some (RegularFile EmptyString) →
  determine_filetype (PyStr path) w =
    (Raise (IndexError "string index out of range"),
     World (fs w) (heap w ++ [FileObject (Some EmptyString) 0 true])).
Proof.
  intros Hpath.
  by rewrite determine_filetype_unfold, (read_first_bytes_regular w path EmptyString).
Qed.

Lemma determine_filetype_empty_file_witness :
  determine_filetype (PyStr "empty.dat") demo_world =
    (Raise (IndexError "string index out of range"),
     World (fs demo_world) (heap demo_world ++ [FileObject (Some EmptyString) 0 true])).
Proof.
  apply (determine_filetype_empty_file demo_world "empty.dat").
  vm_compute. reflexivity.
Defined.

(** C5, as stated, fails in its example: a 12-byte prefix that starts with
    "RSL" and carries "UF" in bytes 4-5 matches the UF entry, which is listed
    before RSL, and yields UF. *)
Lemma determine_filetype_RSL_prefix_yields_UF :
  read_first_bytes (PyStr "rsl.dat") demo_world =
    (Ok "RSL0UF000000", World demo_fs [FileObject (Some "RSL0UF0000000") 12 true]) ∧
  String.length "RSL0UF000000" = 12 ∧
  slice 0 3 "RSL0UF000000" = "RSL" ∧
  determine_filetype (PyStr "rsl.dat") demo_world =
    (Ok "UF", World demo_fs [FileObject (Some "RSL0UF0000000") 12 true]).
Proof. repeat split; vm_compute; reflexivity. Qed.

(** C5, amended: for every 12-byte prefix read, the label
    [determine_filetype] returns is the one the signature table gives when
    it is consulted in the order MDV, NETCDF3, NETCDF4, WSR88D, UF, DORADE,
    LASSEN, RSL, HDF4, SIGMET, BZ2, UNKNOWN: the label of the first entry
    that matches (every entry before it does not match), and UNKNOWN when
    none does; a prefix that starts with "RSL" yields RSL unless the
    earlier UF or LASSEN entry matches too, and never a label listed after
    RSL. *)
Theorem determine_filetype_precedence
    (filename : pyval) (w w1 : world) (begin : string) :
  read_first_bytes filename w = (Ok begin, w1) →
  String.length begin = 12 →
  (snd <$> signature_table) ++ ["UNKNOWN"] = label_order ∧
  determine_filetype filename w = (Ok (first_match signature_table begin), w1) ∧
  (∀ i matches label,
     signature_table !! i = Some (matches, label) → matches begin = true →
     ∃ j matches' label',
       j ≤ i ∧ signature_table !! j = Some (matches', label') ∧
       matches' begin = true ∧
       (∀ k e, k < j → signature_table !! k = Some e → e.1 begin = false) ∧
       determine_filetype filename w = (Ok label', w1)) ∧
  ((∀ e, e ∈ signature_table → e.1 begin = false) →
     determine_filetype filename w = (Ok "UNKNOWN", w1)) ∧
  (slice 0 3 begin = "RSL" →
     ∃ label,
       determine_filetype filename w = (Ok label, w1) ∧
       label ∈ ["UF"; "LASSEN"; "RSL"] ∧
       (label ∉ ["HDF4"; "SIGMET"; "BZ2"; "UNKNOWN"]) ∧
       (String.eqb (slice 4 6 begin) "UF" = false →
        String.eqb (slice 4 11 begin) "SUNRISE" = false → label = "RSL")).
Proof.
  intros Hread Hlen.
  assert (determine_filetype filename w = (Ok (first_match signature_table begin), w1))
    as Hdet.
  { rewrite determine_filetype_unfold, Hread.
    by rewrite match_signature_first_match by (by eapply string_length_nonempty). }
  split; [reflexivity|]. split; [done|]. rewrite Hdet. split; [|split].
  - intros i matches label Hi Hm.
    destruct (first_match_least signature_table begin i matches label Hi Hm)
      as (j & m' & l' & Hle & Hj & Hm' & Hbefore & Hres).
    exists j, m', l'. by rewrite Hres.
  - intros Hall. by rewrite first_match_default.
  - intros Hrsl. eexists. split; [reflexivity|].
    rewrite (first_match_RSL_prefix begin Hrsl).
    destruct (String.eqb (slice 4 6 begin) "UF");
      [|destruct (String.eqb (slice 4 11 begin) "SUNRISE")];
      (split; [set_solver|]); (split; [|done]);
      intros Hin; repeat (apply elem_of_cons in Hin as [?|Hin]; [done|]);
      by apply elem_of_nil in Hin.
Qed.

Lemma determine_filetype_precedence_witness :
  String.length "RSL v1.44 ra" = 12 ∧
  determine_filetype (PyStr "plain.rsl") demo_world =
    (Ok (first_match signature_table "RSL v1.44 ra"),
     World demo_fs [FileObject (Some "RSL v1.44 radar") 12 true]) ∧
  first_match signature_table "RSL v1.44 ra" = "RSL".
Proof.
  split; [reflexivity|]. split; [|reflexivity].
  apply (determine_filetype_precedence (PyStr "plain.rsl") demo_world
           (World demo_fs [FileObject (Some "RSL v1.44 radar") 12 true]) "RSL v1.44 ra");
    vm_compute; reflexivity.
Defined.

(** ** Claims on [read] *)

(** What a successful sniff of a path says about the file and the world. *)
Lemma determine_filetype_path_inv (w w1 : world) (path label : string) :
  determine_filetype (PyStr path) w = (Ok label, w1) →
  ∃ bytes,
    fs w !! path = Some (RegularFile bytes) ∧
    match_signature (slice 0 12 bytes) = Ok label ∧
    w1 = World (fs w)
           (heap w ++ [FileObject (Some bytes) (String.length (slice 0 12 bytes)) true]).
Proof.
  rewrite determine_filetype_unfold. intros Hdet.
  destruct (fs w !! path) as [[bytes|]|] eqn:Hpath.
  - rewrite (read_first_bytes_regular w path bytes) in Hdet by done.
    exists bytes. by simplify_eq.
  - by rewrite (read_first_bytes_faulty w path) in Hdet.
  - by rewrite (read_first_bytes_missing w path) in Hdet.
Qed.



Section DispatcherProperties.
Context {Radar Kwargs Dataset : Type} {imports : Imports Radar Kwargs Dataset}.
Implicit Types (filename : string) (use_rsl : bool) (kwargs : Kwargs) (w : world).

Lemma read_direct filename use_rsl kwargs w (filetype : string) (w1 : world) :
  determine_filetype (PyStr filename) w = (Ok filetype, w1) →
  filetype ≠ "BZ2" →
  read filename use_rsl kwargs w = dispatch filename use_rsl kwargs filetype w1.
Proof.
  intros Hdet Hne. unfold read, mbind, M_bind. rewrite Hdet.
  by apply String.eqb_neq in Hne as ->.
Qed.

Lemma read_bz2 filename use_rsl kwargs w (w1 : world) :
  determine_filetype (PyStr filename) w = (Ok "BZ2", w1) →
  read filename use_rsl kwargs w =
    match BZ2File filename w1 with
    | (Ok f, w2) =>
        match determine_filetype f w2 with
        | (Ok filetype, w3) => dispatch filename use_rsl kwargs filetype w3
        | (Raise e, w3) => (Raise e, w3)
        end
    | (Raise e, w2) => (Raise e, w2)
    end.
Proof.
  intros Hdet. unfold read. unfold mbind at 1 2. unfold M_bind at 1 2.
  rewrite Hdet. cbn [String.eqb Ascii.eqb Bool.eqb].
  unfold mbind, M_bind. by destruct (BZ2File filename w1) as [[f|e] w2].
Qed.

Lemma read_detected filename use_rsl kwargs w (filetype : string) (w1 : world) :
  detected filename w filetype w1 →
  read filename use_rsl kwargs w = dispatch filename use_rsl kwargs filetype w1.
Proof.
  intros [[Hdet Hne]|(w' & f & w'' & Hdet & Hbz & Hin)].
  - by apply read_direct.
  - by rewrite (read_bz2 _ _ _ _ w'), Hbz, Hin.
Qed.

(** X18: the four legacy-only labels that the dispatcher does list (UF,
    HDF4, RSL, LASSEN) go to the legacy reader when the library is
    available, whatever [use_rsl] is. *)
Lemma read_legacy_only_listed filename use_rsl kwargs w (filetype : string) (w1 : world) :
  detected filename w filetype w1 →
  filetype ∈ ["UF"; "HDF4"; "RSL"; "LASSEN"] →
  _RSL_AVAILABLE = true →
  read filename use_rsl kwargs w = rsl_read_rsl filename kwargs w1.
Proof.
  intros Hdet Hin Havail. rewrite (read_detected _ _ _ _ filetype w1) by done.
  unfold dispatch, read_rsl. rewrite Havail.
  repeat (apply elem_of_cons in Hin as [->|Hin]; [reflexivity|]).
  by apply elem_of_nil in Hin.
Qed.

(** C1 fails for DORADE: the sniffer returns the label "DORADE" while the
    dispatcher lists "DORAD", so a file sniffed as DORADE falls through
    to the unsupported-format failure, whether or not the legacy library
    is available. *)
Theorem read_DORADE_unsupported filename use_rsl kwargs w (w1 : world) :
  determine_filetype (PyStr filename) w = (Ok "DORADE", w1) →
  read filename use_rsl kwargs w =
    (Raise (TypeError "Unknown or unsupported file format: DORADE"), w1).
Proof.
  intros Hdet. rewrite (read_direct _ _ _ _ "DORADE" w1) by done.
  unfold dispatch. cbn [String.eqb Ascii.eqb Bool.eqb orb].
  by rewrite bool_decide_eq_false_2
    by (intros Hin; repeat (apply elem_of_cons in Hin as [?|Hin]; [done|]);
        by apply elem_of_nil in Hin).
Qed.




(** C7: for every file sniffed as NETCDF3 or NETCDF4, [read] opens the
    file as a dataset and, when that succeeds, invokes the NEXRAD-CDM
    reader if "cdm_data_type" is among the global attributes and the
    CF/Radial reader otherwise; an error of the dataset constructor
    propagates. *)
Theorem read_netcdf filename use_rsl kwargs w (filetype : string) (w1 : world) :
  determine_filetype (PyStr filename) w = (Ok filetype, w1) →
  filetype = "NETCDF3" ∨ filetype = "NETCDF4" →
  (∀ dset w2,
     netCDF4_Dataset filename w1 = (Ok dset, w2) →
     ("cdm_data_type" ∈ ncattrs dset →
      read filename use_rsl kwargs w = read_nexrad_cdm filename kwargs w2) ∧
     ("cdm_data_type" ∉ ncattrs dset →
      read filename use_rsl kwargs w = read_cfradial filename kwargs w2)) ∧
  (∀ e w2,
     netCDF4_Dataset filename w1 = (Raise e, w2) →
     read filename use_rsl kwargs w = (Raise e, w2)).
Proof.
  intros Hdet Hlabel.
  assert (read filename use_rsl kwargs w =
            (dset ← netCDF4_Dataset filename;
             if bool_decide ("cdm_data_type" ∈ ncattrs dset)
             then read_nexrad_cdm filename kwargs
             else read_cfradial filename kwargs) w1) as ->.
  { rewrite (read_direct _ _ _ _ filetype w1) by (by destruct Hlabel as [-> | ->]).
    by destruct Hlabel as [-> | ->]. }
  unfold mbind, M_bind. split.
  - intros dset w2 ->. split; intros Hattr.
    + by rewrite bool_decide_eq_true_2.
    + by rewrite bool_decide_eq_false_2.
  - by intros e w2 ->.
Qed.

(** C8, amended: for every file sniffed as SIGMET, [read] invokes the
    native Sigmet reader when [use_rsl] is false, and the legacy reader
    when [use_rsl] is true and the legacy library is available; the
    chosen reader receives the file name and the keyword options of the
    call unchanged. *)
Theorem read_sigmet_choice filename use_rsl kwargs w (w1 : world) :
  determine_filetype (PyStr filename) w = (Ok "SIGMET", w1) →
  (use_rsl = true → _RSL_AVAILABLE = true →
   read filename use_rsl kwargs w = rsl_read_rsl filename kwargs w1) ∧
  (use_rsl = false →
   read filename use_rsl kwargs w = read_sigmet filename kwargs w1).
Proof.
  intros Hdet. rewrite (read_direct _ _ _ _ "SIGMET" w1) by done.
  unfold dispatch, read_rsl. cbn [String.eqb Ascii.eqb Bool.eqb orb].
  split; [intros -> ->|intros ->]; reflexivity.
Qed.

(** C9: when the label that [read] detects is UNKNOWN, or is one of the
    legacy-only labels UF, HDF4, RSL, DORADE, LASSEN while the legacy
    library is unavailable, [read] raises the TypeError whose message
    ends with that label, and so returns no radar object. *)
Theorem read_unsupported filename use_rsl kwargs w (filetype : string) (w1 : world) :
  detected filename w filetype w1 →
  filetype = "UNKNOWN" ∨
    (filetype ∈ ["UF"; "HDF4"; "RSL"; "DORADE"; "LASSEN"] ∧ _RSL_AVAILABLE = false) →
  read filename use_rsl kwargs w =
    (Raise (TypeError (String.append "Unknown or unsupported file format: " filetype)),
     w1) ∧
  ∀ radar w', read filename use_rsl kwargs w ≠ (Ok radar, w').
Proof.
  intros Hdet Hlabel.
  assert (read filename use_rsl kwargs w =
            (Raise (TypeError
                      (String.append "Unknown or unsupported file format: " filetype)),
             w1)) as ->; [|done].
  rewrite (read_detected _ _ _ _ filetype w1) by done.
  unfold dispatch. destruct Hlabel as [->|[Hin Hunavail]].
  - cbn [String.eqb Ascii.eqb Bool.eqb orb].
    by rewrite bool_decide_eq_false_2
      by (intros Hin; repeat (apply elem_of_cons in Hin as [?|Hin]; [done|]);
          by apply elem_of_nil in Hin).
  - rewrite Hunavail, andb_false_r.
    repeat (apply elem_of_cons in Hin as [->|Hin]; [reflexivity|]).
    by apply elem_of_nil in Hin.
Qed.

(** C10: for every file sniffed as SIGMET, when [use_rsl] is true and the
    legacy library is unavailable, [read] raises NameError for the unbound
    name [read_rsl]: neither the TypeError of the unsupported-format
    failure nor a call of the native Sigmet reader. *)
Theorem read_sigmet_use_rsl_unavailable filename kwargs w (w1 : world) :
  determine_filetype (PyStr filename) w = (Ok "SIGMET", w1) →
  _RSL_AVAILABLE = false →
  read filename true kwargs w =
    (Raise (NameError "global name 'read_rsl' is not defined"), w1).
Proof.
  intros Hdet Hunavail. rewrite (read_direct _ _ _ _ "SIGMET" w1) by done.
  unfold dispatch, read_rsl. cbn [String.eqb Ascii.eqb Bool.eqb orb].
  by rewrite Hunavail.
Qed.
End DispatcherProperties.

(** ** The claims at concrete files *)

Lemma read_DORADE_unsupported_witness :
  @_RSL_AVAILABLE _ _ _ (demo_imports true) = true ∧
  read (imports:=demo_imports true) "swp.dorade" false demo_kwargs demo_world =
    (Raise (TypeError "Unknown or unsupported file format: DORADE"),
     World demo_fs [FileObject (Some "SSWB0000000000000000") 12 true]).
Proof.
  split; [reflexivity|].
  apply (read_DORADE_unsupported (imports:=demo_imports true)
           "swp.dorade" false demo_kwargs demo_world).
  vm_compute. reflexivity.
Defined.


Lemma read_netcdf_witness :
  read (imports:=demo_imports true) "cdm.nc" false demo_kwargs demo_world =
    @read_nexrad_cdm _ _ _ (demo_imports true) "cdm.nc" demo_kwargs
      (World demo_fs
         [FileObject (Some (String.append hdf5_signature "0000000000")) 12 true]).
Proof.
  refine (proj1 (proj1 (read_netcdf (imports:=demo_imports true)
                          "cdm.nc" false demo_kwargs demo_world "NETCDF4"
                          (World demo_fs
                             [FileObject (Some (String.append hdf5_signature "0000000000"))
                                12 true]) _ _)
                   ["Conventions"; "cdm_data_type"] _ _) _).
  - vm_compute. reflexivity.
  - right. reflexivity.
  - reflexivity.
  - cbn. right. left.
Defined.

(** C8, as stated, fails: with [use_rsl] true and the legacy library
    unavailable, a file sniffed as SIGMET does not reach the legacy reader;
    evaluating the unbound name raises NameError. *)
Lemma read_sigmet_use_rsl_not_legacy :
  determine_filetype (PyStr "vol2.sigmet") demo_world =
    (Ok "SIGMET",
     World demo_fs
       [FileObject (Some (String.append sigmet_signature "1111111111111111")) 12 true]) ∧
  fst (read (imports:=demo_imports false) "vol2.sigmet" true demo_kwargs demo_world) =
    Raise (NameError "global name 'read_rsl' is not defined") ∧
  read (imports:=demo_imports false) "vol2.sigmet" true demo_kwargs demo_world ≠
    @rsl_read_rsl _ _ _ (demo_imports false) "vol2.sigmet" demo_kwargs
      (World demo_fs
         [FileObject (Some (String.append sigmet_signature "1111111111111111")) 12 true]).
Proof.
  split; [vm_compute; reflexivity|]. split; [vm_compute; reflexivity|].
  vm_compute. discriminate.
Qed.

Lemma read_sigmet_choice_witness :
  read (imports:=demo_imports true) "vol3.sigmet" true demo_kwargs demo_world =
    @rsl_read_rsl _ _ _ (demo_imports true) "vol3.sigmet" demo_kwargs
      (World demo_fs
         [FileObject (Some (String.append sigmet_signature "2222222222222222")) 12 true]) ∧
  read (imports:=demo_imports true) "vol3.sigmet" false demo_kwargs demo_world =
    @read_sigmet _ _ _ (demo_imports true) "vol3.sigmet" demo_kwargs
      (World demo_fs
         [FileObject (Some (String.append sigmet_signature "2222222222222222")) 12 true]).
Proof.
  split.
  - apply (read_sigmet_choice (imports:=demo_imports true)
             "vol3.sigmet" true demo_kwargs demo_world);
      [vm_compute|..]; reflexivity.
  - apply (read_sigmet_choice (imports:=demo_imports true)
             "vol3.sigmet" false demo_kwargs demo_world);
      [vm_compute|..]; reflexivity.
Defined.

Lemma read_unsupported_witness :
  read (imports:=demo_imports false) "vol.uf" false demo_kwargs demo_world =
    (Raise (TypeError "Unknown or unsupported file format: UF"),
     World demo_fs [FileObject (Some "UF0000000000000000") 12 true]).
Proof.
  refine (proj1 (read_unsupported (imports:=demo_imports false)
                   "vol.uf" false demo_kwargs demo_world "UF"
                   (World demo_fs [FileObject (Some "UF0000000000000000") 12 true]) _ _)).
  - left. split; [vm_compute; reflexivity | discriminate].
  - right. split; [left | reflexivity].
Defined.

Lemma read_sigmet_use_rsl_unavailable_witness :
  read (imports:=demo_imports false) "vol.sigmet" true demo_kwargs demo_world =
    (Raise (NameError "global name 'read_rsl' is not defined"),
     World demo_fs
       [FileObject (Some (String.append sigmet_signature "0000000000000000")) 12 true]).
Proof.
  apply (read_sigmet_use_rsl_unavailable (imports:=demo_imports false)
           "vol.sigmet" demo_kwargs demo_world);
    [vm_compute|]; reflexivity.
Defined.

(** Sanity checks of the embedding on the signatures of the specification. *)
Example sniff_CDF : match_signature "CDF" = Ok "NETCDF3".
Proof. reflexivity. Qed.

Example sniff_BZh : match_signature "BZh" = Ok "BZ2".
Proof. reflexivity. Qed.

Example sniff_ARCHIVE2 : match_signature "ARCHIVE2.001" = Ok "WSR88D".
Proof. reflexivity. Qed.

Example sniff_one_byte : match_signature "x" = Ok "UNKNOWN".
Proof. reflexivity. Qed.

Example sniff_mdv : match_signature mdv_signature = Ok "MDV".
Proof. reflexivity. Qed.

Example read_UF_legacy :
  fst (read (imports:=demo_imports true) "vol.uf" false demo_kwargs demo_world) =
    Ok (Call "read_rsl" "vol.uf" demo_kwargs).
Proof. vm_compute. reflexivity. Qed.


(** * Further properties of the module *)

(** ** String slices *)

Lemma substring_length_le (s : string) :
  ∀ n m, String.length (substring n m s) ≤ m.
Proof.
  induction s as [|c s IH]; intros [|n] [|m]; cbn; try lia.
  - specialize (IH 0 m). lia.
  - apply (IH n 0).
  - apply (IH n (S m)).
Qed.

Lemma slice_length_le (i j : nat) (s : string) :
  String.length (slice i j s) ≤ j - i.
Proof. apply substring_length_le. Qed.

Lemma substring_past_end (s : string) :
  ∀ n m, String.length s ≤ n → substring n m s = EmptyString.
Proof.
  induction s as [|c s IH]; intros [|n] m Hlen; cbn in *; try done; try lia.
  - by destruct m.
  - apply IH. lia.
Qed.

(** ** [determine_filetype]: errors, frame and repeatability *)

(** A [BZ2File] object over data that the library rejects: the handler of
    line 149 takes the object itself and its read raises the library's
    exception before [close] is reached. *)
Lemma read_first_bytes_rejected_stream
    (w : world) (h : nat) (o : file_object) (e : exn) :
  heap w !! h = Some o →
  fo_closed o = false →
  read_first_bytes (PyBZ2File h e) w = (Raise e, w).
Proof.
  intros Hh Hopen.
  unfold read_first_bytes, mbind, M_bind, mret, M_ret, try_except_TypeError, open_rb,
    file_read.
  by rewrite Hh, Hopen.
Qed.

(** What a handle-backed call does on a file object that is closed. *)
Lemma read_first_bytes_closed_handle (w : world) (h : nat) (o : file_object) :
  heap w !! h = Some o →
  fo_closed o = true →
  read_first_bytes (PyFile h) w = (Raise (ValueError "I/O operation on closed file"), w).
Proof.
  intros Hh Hclosed.
  unfold read_first_bytes, mbind, M_bind, mret, M_ret, try_except_TypeError, open_rb,
    file_read.
  by rewrite Hh, Hclosed.
Qed.

(** X1: sniffing a path never changes the file system, and sniffing the
    same path again in the world the first call left gives the same outcome,
    label or exception. *)
Theorem determine_filetype_path_repeatable (w : world) (path : string) :
  fs (determine_filetype (PyStr path) w).2 = fs w ∧
  (determine_filetype (PyStr path) (determine_filetype (PyStr path) w).2).1 =
    (determine_filetype (PyStr path) w).1.
Proof.
  rewrite !determine_filetype_unfold.
  destruct (fs w !! path) as [[bytes|]|] eqn:Hpath.
  - rewrite (read_first_bytes_regular w path bytes) by done. cbn [fst snd].
    split; [done|]. by rewrite (read_first_bytes_regular _ path bytes).
  - rewrite (read_first_bytes_faulty w path) by done. cbn [fst snd].
    split; [done|]. by rewrite (read_first_bytes_faulty _ path).
  - rewrite (read_first_bytes_missing w path) by done. cbn [fst snd].
    split; [done|]. by rewrite (read_first_bytes_missing _ path).
Qed.

(** X2: a path-backed call leaves every file object that existed before the
    call as it was, and allocates at most one. *)
Theorem determine_filetype_path_frame
    (w : world) (path : string) (h : nat) (o : file_object) :
  heap w !! h = Some o →
  heap (determine_filetype (PyStr path) w).2 !! h = Some o ∧
  length (heap (determine_filetype (PyStr path) w).2) ≤ S (length (heap w)).
Proof.
  intros Hh. rewrite determine_filetype_unfold.
  destruct (fs w !! path) as [[bytes|]|] eqn:Hpath.
  - rewrite (read_first_bytes_regular w path bytes) by done. cbn [snd heap].
    rewrite length_app. cbn. split; [by apply lookup_app_l_Some | lia].
  - rewrite (read_first_bytes_faulty w path) by done. cbn [snd heap].
    rewrite length_app. cbn. split; [by apply lookup_app_l_Some | lia].
  - rewrite (read_first_bytes_missing w path) by done. cbn [snd]. split; [done | lia].
Qed.

Lemma determine_filetype_path_frame_witness :
  heap (determine_filetype (PyStr "one.dat") consumed_world).2 !! 0 =
    Some (FileObject (Some "CDF0000000000000") 16 false) ∧
  length (heap (determine_filetype (PyStr "one.dat") consumed_world).2) ≤
    S (length (heap consumed_world)).
Proof.
  apply (determine_filetype_path_frame consumed_world "one.dat" 0). reflexivity.
Defined.

(** X3: a file object handed to the sniffer cannot be sniffed again: the
    first call closes it, so a second call on the same object raises
    ValueError and changes nothing. *)
Theorem determine_filetype_handle_twice
    (w w1 : world) (h : nat) (o : file_object) (bytes : string) (r : result string) :
  heap w !! h = Some o →
  fo_closed o = false →
  fo_bytes o = Some bytes →
  determine_filetype (PyFile h) w = (r, w1) →
  determine_filetype (PyFile h) w1 =
    (Raise (ValueError "I/O operation on closed file"), w1).
Proof.
  intros Hh Hopen Hbytes Hfirst.
  rewrite determine_filetype_unfold, (read_first_bytes_handle w h o bytes) in Hfirst
    by done.
  injection Hfirst as _ <-.
  rewrite determine_filetype_unfold.
  apply lookup_lt_Some in Hh as Hlt.
  by rewrite (read_first_bytes_closed_handle _ h
                (FileObject (Some bytes)
                   (fo_pos o + String.length (slice (fo_pos o) (fo_pos o + 12) bytes))
                   true))
    by (done || by apply list_lookup_insert_eq).
Qed.

Lemma determine_filetype_handle_twice_witness :
  determine_filetype (PyFile 0)
    (World demo_fs [FileObject (Some "CDF0000000000000") 12 true]) =
    (Raise (ValueError "I/O operation on closed file"),
     World demo_fs [FileObject (Some "CDF0000000000000") 12 true]).
Proof.
  apply (determine_filetype_handle_twice handle_world _ 0
           (FileObject (Some "CDF0000000000000") 0 false) "CDF0000000000000"
           (Ok "NETCDF3"));
    vm_compute; reflexivity.
Defined.

(** X4: the sniffer does not rewind a file object it is given: on an open
    object whose read position is at or past the end of its bytes, the read
    returns the empty string, the object is closed, and the SIGMET test
    raises IndexError. *)
Theorem determine_filetype_handle_at_end
    (w : world) (h : nat) (o : file_object) (bytes : string) :
  heap w !! h = Some o →
  fo_closed o = false →
  fo_bytes o = Some bytes →
  String.length bytes ≤ fo_pos o →
  determine_filetype (PyFile h) w =
    (Raise (IndexError "string index out of range"),
     World (fs w) (<[h := FileObject (Some bytes) (fo_pos o) true]> (heap w))).
Proof.
  intros Hh Hopen Hbytes Hend.
  rewrite determine_filetype_unfold, (read_first_bytes_handle w h o bytes) by done.
  unfold slice. rewrite substring_past_end by done. cbn [String.length].
  by rewrite Nat.add_0_r.
Qed.

Lemma determine_filetype_handle_at_end_witness :
  determine_filetype (PyFile 0) consumed_world =
    (Raise (IndexError "string index out of range"),
     World edge_fs [FileObject (Some "CDF0000000000000") 16 true]).
Proof.
  apply (determine_filetype_handle_at_end consumed_world 0
           (FileObject (Some "CDF0000000000000") 16 false) "CDF0000000000000");
    vm_compute; first [reflexivity | lia].
Defined.

(** ** [determine_filetype]: what the label depends on *)

(** X5: the bytes handed to the signature tests are never more than 12,
    whatever the file or file object delivers. *)
Theorem read_first_bytes_at_most_12
    (filename : pyval) (w w1 : world) (begin : string) :
  read_first_bytes filename w = (Ok begin, w1) →
  String.length begin ≤ 12.
Proof.
  unfold read_first_bytes, mbind, M_bind, mret, M_ret, try_except_TypeError, open_rb,
    file_read, file_close.
  intros Hread. destruct filename as [path|h|h e].
  - destruct (fs w !! path) as [n|]; [|by destruct (has_nul path)].
    cbn [heap fs] in Hread.
    rewrite heap_lookup_fresh in Hread. cbn [fo_closed fo_bytes fo_pos] in Hread.
    destruct (inode_bytes n) as [bytes|]; [|done]. cbn [heap fs] in Hread.
    rewrite heap_insert_fresh, heap_lookup_fresh in Hread.
    injection Hread as <- _. apply (slice_length_le 0 12).
  - destruct (heap w !! h) as [o|]; [|done].
    destruct (fo_closed o); [done|]. destruct (fo_bytes o) as [bytes|]; [|done].
    cbn [heap fs] in Hread.
    destruct (<[h:=_]> (heap w) !! h); injection Hread as <- _;
      etrans; [apply slice_length_le | lia | apply slice_length_le | lia].
  - destruct (heap w !! h) as [o|]; [|done]. by destruct (fo_closed o).
Qed.

Lemma read_first_bytes_at_most_12_witness :
  String.length "0123456789ab" ≤ 12.
Proof.
  apply (read_first_bytes_at_most_12 (PyStr "longer.dat") edge_world
           (World edge_fs [FileObject (Some "0123456789abYYYYYYY") 12 true])).
  vm_compute. reflexivity.
Defined.

(** X6: two regular files that agree on their first 12 bytes get the same
    outcome from the sniffer, whatever follows in either file. *)
Theorem determine_filetype_first_12_bytes_only
    (w w' : world) (path path' bytes bytes' : string) :
  fs w !! path = Some (RegularFile bytes) →
  fs w' !! path' = Some (RegularFile bytes') →
  slice 0 12 bytes = slice 0 12 bytes' →
  (determine_filetype (PyStr path) w).1 = (determine_filetype (PyStr path') w').1.
Proof.
  intros Hpath Hpath' Hsame. rewrite !determine_filetype_unfold.
  rewrite (read_first_bytes_regular w path bytes) by done.
  rewrite (read_first_bytes_regular w' path' bytes') by done.
  cbn [fst]. by rewrite Hsame.
Qed.

Lemma determine_filetype_first_12_bytes_only_witness :
  (determine_filetype (PyStr "long.dat") edge_world).1 =
    (determine_filetype (PyStr "longer.dat") edge_world).1.
Proof.
  apply (determine_filetype_first_12_bytes_only edge_world edge_world
           "long.dat" "longer.dat" "0123456789abXXXX" "0123456789abYYYYYYY");
    vm_compute; reflexivity.
Defined.

Lemma match_signature_label (begin label : string) :
  match_signature begin = Ok label → label ∈ label_order.
Proof.
  unfold match_signature, label_order. intros Hlabel.
  repeat (case_match; simplify_eq; try (apply list_elem_of_In; cbn; tauto)).
Qed.

(** X7: whenever the sniffer returns, the label is one of the twelve of the
    closed set MDV, NETCDF3, NETCDF4, WSR88D, UF, DORADE, LASSEN, RSL, HDF4,
    SIGMET, BZ2, UNKNOWN. *)
Theorem determine_filetype_label_closed_set
    (filename : pyval) (w w1 : world) (label : string) :
  determine_filetype filename w = (Ok label, w1) →
  label ∈ label_order.
Proof.
  rewrite determine_filetype_unfold. intros Hdet.
  destruct (read_first_bytes filename w) as [[begin|e] w2]; [|done].
  injection Hdet as Hlabel _. by eapply match_signature_label.
Qed.

Lemma determine_filetype_label_closed_set_witness :
  "LASSEN" ∈ label_order.
Proof.
  apply (determine_filetype_label_closed_set (PyStr "vol.lassen") edge_world
           (World edge_fs [FileObject (Some "0000SUNRISE0") 12 true])).
  vm_compute. reflexivity.
Defined.

Lemma bool_if_same {A : Type} (b : bool) (x : A) : (if b then x else x) = x.
Proof. by destruct b. Qed.

(** X8: a file of exactly one byte is SIGMET when that byte is ESC (0x1B)
    and UNKNOWN otherwise; no longer signature can match it. *)
Theorem determine_filetype_one_byte (w : world) (path : string) (c : ascii) :
  fs w !! path = Some (RegularFile (String c EmptyString)) →
  (determine_filetype (PyStr path) w).1 =
    Ok (if Ascii.eqb c "027" then "SIGMET" else "UNKNOWN").
Proof.
  intros Hpath.
  rewrite determine_filetype_unfold, (read_first_bytes_regular w path _) by done.
  cbn [fst]. destruct (Ascii.eqb_spec c "027") as [->|Hne]; [reflexivity|].
  apply Ascii.eqb_neq in Hne.
  unfold match_signature, slice. cbn. change (ascii_of_nat 27) with "027"%char.
  by rewrite Hne, !bool_if_same.
Qed.

Lemma determine_filetype_one_byte_witness :
  (determine_filetype (PyStr "esc.dat") edge_world).1 = Ok "SIGMET" ∧
  (determine_filetype (PyStr "one.dat") edge_world).1 = Ok "UNKNOWN".
Proof.
  split.
  - apply (determine_filetype_one_byte edge_world "esc.dat" "027"). vm_compute. reflexivity.
  - apply (determine_filetype_one_byte edge_world "one.dat" "x"). vm_compute. reflexivity.
Defined.

(** ** [determine_filetype]: which signatures decide alone *)

(** Extracts the first byte of a prefix from an equation on a leading
    slice of it. *)
Ltac head_byte H :=
  match type of H with
  | slice 0 _ ?b = _ =>
      destruct b as [|? ?]; [discriminate H|];
      let E := fresh "E" in
      pose proof H as E; unfold slice in E; cbn in E; injection E as -> _
  end.

(** X9: each of the five leading signatures decides the label alone: a
    prefix that carries the MDV signature, "CDF", the HDF5 signature,
    "ARCHIVE2." or "AR2V000", or "UF" at its start is classified MDV,
    NETCDF3, NETCDF4, WSR88D or UF, whatever its other bytes are. *)
Theorem match_signature_leading (begin label : string) :
  (slice 0 12 begin = mdv_signature ∧ label = "MDV") ∨
  (slice 0 3 begin = "CDF" ∧ label = "NETCDF3") ∨
  (slice 0 8 begin = hdf5_signature ∧ label = "NETCDF4") ∨
  ((slice 0 9 begin = "ARCHIVE2." ∨ slice 0 7 begin = "AR2V000") ∧ label = "WSR88D") ∨
  (slice 0 2 begin = "UF" ∧ label = "UF") →
  match_signature begin = Ok label.
Proof.
  intros [[H ->]|[[H ->]|[[H ->]|[[[H|H] ->]|[H ->]]]]];
    head_byte H; unfold match_signature; rewrite H; try reflexivity.
  - cbn. by rewrite orb_true_r.
Qed.

Lemma match_signature_leading_witness :
  match_signature "AR2V0006.001" = Ok "WSR88D".
Proof.
  apply (match_signature_leading "AR2V0006.001" "WSR88D").
  right. right. right. left. split; [right|]; reflexivity.
Defined.

(** Closes a goal whose hypothesis [E] says that a signature test succeeded
    on a prefix with known bytes that contradict the signature. *)
Ltac refute_test E :=
  apply String.eqb_eq in E; unfold slice in E; cbn in E; simplify_eq.

(** X10: "UF" in bytes 4-5 outranks every signature but "CDF": such a
    prefix is NETCDF3 when it starts with "CDF" and UF otherwise, even when
    it also starts with a DORADE, RSL, HDF4, SIGMET or bzip2 signature. *)
Theorem match_signature_UF_at_4 (begin : string) :
  slice 4 6 begin = "UF" →
  match_signature begin =
    Ok (if String.eqb (slice 0 3 begin) "CDF" then "NETCDF3" else "UF").
Proof.
  intros Huf.
  destruct begin as [|c0 [|c1 [|c2 [|c3 [|c4 [|c5 rest]]]]]]; try discriminate.
  assert (c4 = "U"%char ∧ c5 = "F"%char) as [-> ->].
  { unfold slice in Huf. cbn in Huf. by simplify_eq. }
  unfold match_signature. rewrite Huf.
  destruct (String.eqb (slice 0 12 _) mdv_signature) eqn:Emdv; [refute_test Emdv|].
  destruct (String.eqb (slice 0 3 _) "CDF"); [done|].
  destruct (String.eqb (slice 0 8 _) hdf5_signature) eqn:Ehdf5; [refute_test Ehdf5|].
  destruct (String.eqb (slice 0 9 _) "ARCHIVE2.") eqn:Earch; [refute_test Earch|].
  destruct (String.eqb (slice 0 7 _) "AR2V000") eqn:Ear2v; [refute_test Ear2v|].
  cbn [orb]. by rewrite orb_true_r.
Qed.

Lemma match_signature_UF_at_4_witness :
  match_signature "SSWBUF000000" = Ok "UF" ∧
  match_signature "CDF0UF000000" = Ok "NETCDF3".
Proof.
  split.
  - apply (match_signature_UF_at_4 "SSWBUF000000"). reflexivity.
  - apply (match_signature_UF_at_4 "CDF0UF000000"). reflexivity.
Defined.

(** X11: unless "UF" stands in bytes 2-3 or 4-5 or "SUNRISE" in bytes 4-10,
    the later signatures decide by the start of the prefix: "SSWB", "VOLD"
    or "COMM" gives DORADE, the HDF4 signature HDF4, a first byte ESC
    SIGMET, and "BZh" BZ2. *)
Theorem match_signature_late (begin label : string) :
  String.eqb (slice 2 4 begin) "UF" = false →
  String.eqb (slice 4 6 begin) "UF" = false →
  String.eqb (slice 4 11 begin) "SUNRISE" = false →
  (slice 0 4 begin ∈ ["SSWB"; "VOLD"; "COMM"] ∧ label = "DORADE") ∨
  (slice 0 4 begin = hdf4_signature ∧ label = "HDF4") ∨
  (slice 0 1 begin = sigmet_signature ∧ label = "SIGMET") ∨
  (slice 0 3 begin = "BZh" ∧ label = "BZ2") →
  match_signature begin = Ok label.
Proof.
  intros Huf2 Huf4 Hsun [[H ->]|[[H ->]|[[H ->]|[H ->]]]].
  - do 2 (apply elem_of_cons in H as [H|H];
            [head_byte H; unfold match_signature; by rewrite H, Huf2, Huf4|]).
    apply elem_of_cons in H as [H|H]; [|by apply elem_of_nil in H].
    destruct begin as [|c0 [|c1 rest]]; try discriminate.
    assert (c0 = "C"%char ∧ c1 = "O"%char) as [-> ->].
    { unfold slice in H. cbn in H. by simplify_eq. }
    unfold match_signature. by rewrite H, Huf2, Huf4.
  - head_byte H. unfold match_signature. by rewrite H, Huf2, Huf4, Hsun.
  - head_byte H. unfold match_signature. by rewrite Huf2, Huf4, Hsun.
  - head_byte H. unfold match_signature, bzip2_signature.
    by rewrite H, Huf2, Huf4, Hsun.
Qed.

Lemma match_signature_late_witness :
  match_signature (String.append hdf4_signature "00000000") = Ok "HDF4".
Proof.
  apply (match_signature_late (String.append hdf4_signature "00000000") "HDF4");
    [reflexivity..|].
  right. left. split; reflexivity.
Defined.

(** ** [read]: detection, errors and the choice of the reader *)

Section DispatcherFurther.
Context {Radar Kwargs Dataset : Type} {imports : Imports Radar Kwargs Dataset}.
Implicit Types (filename : string) (use_rsl : bool) (kwargs : Kwargs) (w : world).

(** The second sniff of line 79, once the first returned BZ2. *)
Lemma resniff_inv filename w (w' w'' w1 : world) (f : pyval) (filetype : string) :
  determine_filetype (PyStr filename) w = (Ok "BZ2", w') →
  BZ2File filename w' = (Ok f, w'') →
  determine_filetype f w'' = (Ok filetype, w1) →
  ∃ bytes content o1 o2,
    fs w !! filename = Some (RegularFile bytes) ∧
    bz2_decompress bytes = Ok content ∧
    match_signature (slice 0 12 content) = Ok filetype ∧
    fo_closed o1 = true ∧ fo_closed o2 = true ∧
    w1 = World (fs w) (heap w ++ [o1; o2]).
Proof.
  intros Hout Hbz Hin.
  destruct (determine_filetype_path_inv _ _ _ _ Hout) as (bytes & Hpath & _ & ->).
  unfold BZ2File in Hbz. cbn [fs heap] in Hbz. rewrite Hpath in Hbz.
  cbn [inode_bytes] in Hbz. rewrite determine_filetype_unfold in Hin.
  destruct (bz2_decompress bytes) as [content|e] eqn:Hcontent; injection Hbz as <- <-.
  - rewrite (read_first_bytes_handle _ _ (FileObject (Some content) 0 false) content)
      in Hin by (done || apply heap_lookup_fresh).
    cbn [fo_pos heap fs] in Hin. rewrite heap_insert_fresh in Hin.
    injection Hin as Hlabel <-.
    exists bytes, content,
      (FileObject (Some bytes) (String.length (slice 0 12 bytes)) true),
      (FileObject (Some content) (String.length (slice 0 12 content)) true).
    repeat split; [done..|]. by rewrite <-(assoc_L (++)).
  - by rewrite (read_first_bytes_rejected_stream _ _ (FileObject None 0 false))
      in Hin by (done || apply heap_lookup_fresh).
Qed.

(** X12: when [read] has detected a file type, the file system is as it
    was and every file object that detection opened (one, or two behind a
    BZ2 label) is closed before any reader is called. *)
Theorem detected_handles_closed filename w (filetype : string) (w1 : world) :
  detected filename w filetype w1 →
  fs w1 = fs w ∧
  ∃ opened,
    heap w1 = heap w ++ opened ∧
    Forall (λ o, fo_closed o = true) opened ∧
    1 ≤ length opened ≤ 2.
Proof.
  intros [[Hdet _]|(w' & f & w'' & Hout & Hbz & Hin)].
  - destruct (determine_filetype_path_inv _ _ _ _ Hdet) as (bytes & _ & _ & ->).
    split; [done|]. eexists [_]. split; [done|]. split; [by constructor|cbn; lia].
  - destruct (resniff_inv _ _ _ _ _ _ _ Hout Hbz Hin)
      as (bytes & content & o1 & o2 & _ & _ & _ & Ho1 & Ho2 & ->).
    split; [done|]. exists [o1; o2]. split; [done|].
    split; [by repeat constructor|cbn; lia].
Qed.

(** X13: for a path that names no file, [read] raises what the sniffer's
    [open] leads to and calls no reader, and nothing is allocated: the
    IOError of [open], or, when the path holds a NUL byte (for which [open]
    raises TypeError and line 150 binds the [str] itself), the
    AttributeError of [f.read]. *)
Theorem read_missing_file filename use_rsl kwargs w :
  fs w !! filename = None →
  read filename use_rsl kwargs w =
    (Raise (if has_nul filename
            then AttributeError "'str' object has no attribute 'read'"
            else IOError "No such file or directory"), w).
Proof.
  intros Hnone. unfold read. unfold mbind at 1 2. unfold M_bind at 1 2.
  by rewrite determine_filetype_unfold, read_first_bytes_missing.
Qed.

(** X14: [use_rsl] matters for SIGMET only: for every other detected file
    type [read] does the same with the flag set and unset. *)
Theorem read_use_rsl_only_for_sigmet filename kwargs w (filetype : string) (w1 : world) :
  detected filename w filetype w1 →
  filetype ≠ "SIGMET" →
  read filename true kwargs w = read filename false kwargs w.
Proof.
  intros Hdet Hne. rewrite !(read_detected _ _ _ _ filetype w1) by done.
  unfold dispatch. apply String.eqb_neq in Hne. by rewrite Hne.
Qed.

(** X15: a detected MDV file goes to the MDV reader and a detected WSR88D
    file to the NEXRAD archive reader, with the file name given to [read]
    (the compressed file's name behind a BZ2 label) and the keyword
    options unchanged. *)
Theorem read_native_only filename use_rsl kwargs w (filetype : string) (w1 : world) :
  detected filename w filetype w1 →
  (filetype = "MDV" → read filename use_rsl kwargs w = read_mdv filename kwargs w1) ∧
  (filetype = "WSR88D" →
   read filename use_rsl kwargs w = read_nexrad_archive filename kwargs w1).
Proof.
  intros Hdet. rewrite (read_detected _ _ _ _ filetype w1) by done.
  split; intros ->; reflexivity.
Qed.

(** X16: only one layer of bzip2 is looked through: when the decompressed
    stream is sniffed as BZ2 again, [read] raises the unsupported-format
    TypeError naming BZ2. *)
Theorem read_bz2_twice filename use_rsl kwargs w (w1 : world) :
  detected filename w "BZ2" w1 →
  read filename use_rsl kwargs w =
    (Raise (TypeError "Unknown or unsupported file format: BZ2"), w1).
Proof.
  intros Hdet. rewrite (read_detected _ _ _ _ "BZ2" w1) by done.
  unfold dispatch. cbn [String.eqb Ascii.eqb Bool.eqb orb].
  by rewrite bool_decide_eq_false_2
    by (intros Hin; repeat (apply elem_of_cons in Hin as [?|Hin]; [done|]);
        by apply elem_of_nil in Hin).
Qed.

(** X17: when the bzip2 library rejects the data of a file sniffed as BZ2
    with an exception [e] (IOError for an invalid stream, EOFError for one
    cut short), the read of the second sniff raises [e]; [read] propagates
    it unchanged, calls no reader, and the stream object is left open,
    since [close] is not reached. *)
Theorem read_bz2_corrupt
    filename use_rsl kwargs w (w1 : world) (bytes : string) (e : exn) :
  determine_filetype (PyStr filename) w = (Ok "BZ2", w1) →
  fs w !! filename = Some (RegularFile bytes) →
  bz2_decompress bytes = Raise e →
  read filename use_rsl kwargs w =
    (Raise e, World (fs w1) (heap w1 ++ [FileObject None 0 false])).
Proof.
  intros Hout Hpath Hrejected. rewrite (read_bz2 _ _ _ _ w1) by done.
  destruct (determine_filetype_path_inv _ _ _ _ Hout) as (bytes' & Hpath' & _ & Hw1).
  assert (fs w1 !! filename = Some (RegularFile bytes)) as Hpath1 by by subst w1.
  unfold BZ2File. rewrite Hpath1. cbn [inode_bytes]. rewrite Hrejected.
  rewrite determine_filetype_unfold.
  by rewrite (read_first_bytes_rejected_stream _ _ (FileObject None 0 false))
    by (done || apply heap_lookup_fresh).
Qed.
End DispatcherFurther.

(** ** The further properties at concrete files *)

Lemma detected_handles_closed_witness :
  fs (World edge_fs
        [FileObject (Some "BZh9BZh9CDF000000000") 12 true;
         FileObject (Some "BZh9CDF000000000") 12 true]) = fs edge_world ∧
  ∃ opened,
    heap (World edge_fs
            [FileObject (Some "BZh9BZh9CDF000000000") 12 true;
             FileObject (Some "BZh9CDF000000000") 12 true]) =
      heap edge_world ++ opened ∧
    Forall (λ o, fo_closed o = true) opened ∧
    1 ≤ length opened ≤ 2.
Proof.
  apply (detected_handles_closed (imports:=demo_imports false)
           "twice.bz2" edge_world "BZ2").
  right.
  exists (World edge_fs [FileObject (Some "BZh9BZh9CDF000000000") 12 true]),
    (PyFile 1),
    (World edge_fs
       [FileObject (Some "BZh9BZh9CDF000000000") 12 true;
        FileObject (Some "BZh9CDF000000000") 0 false]).
  repeat split; vm_compute; reflexivity.
Defined.

Lemma read_missing_file_witness :
  read (imports:=demo_imports true) "absent.dat" false demo_kwargs demo_world =
    (Raise (IOError "No such file or directory"), demo_world) ∧
  read (imports:=demo_imports true) (bytes_of [97; 0; 98]) false demo_kwargs demo_world =
    (Raise (AttributeError "'str' object has no attribute 'read'"), demo_world).
Proof.
  split.
  - apply (read_missing_file (imports:=demo_imports true)
             "absent.dat" false demo_kwargs demo_world).
    vm_compute. reflexivity.
  - apply (read_missing_file (imports:=demo_imports true)
             (bytes_of [97; 0; 98]) false demo_kwargs demo_world).
    vm_compute. reflexivity.
Defined.

Lemma read_use_rsl_only_for_sigmet_witness :
  read (imports:=demo_imports true) "vol.uf" true demo_kwargs demo_world =
    read (imports:=demo_imports true) "vol.uf" false demo_kwargs demo_world.
Proof.
  apply (read_use_rsl_only_for_sigmet (imports:=demo_imports true)
           "vol.uf" demo_kwargs demo_world "UF"
           (World demo_fs [FileObject (Some "UF0000000000000000") 12 true])).
  - left. split; [vm_compute; reflexivity | discriminate].
  - discriminate.
Defined.

Lemma read_native_only_witness :
  read (imports:=demo_imports false) "a.mdv.bz2" false demo_kwargs edge_world =
    @read_mdv _ _ _ (demo_imports false) "a.mdv.bz2" demo_kwargs
      (World edge_fs
         [FileObject (Some (String.append "BZh9" (String.append mdv_signature "0000")))
            12 true;
          FileObject (Some (String.append mdv_signature "0000")) 12 true]).
Proof.
  refine (proj1 (read_native_only (imports:=demo_imports false)
                   "a.mdv.bz2" false demo_kwargs edge_world "MDV" _ _) eq_refl).
  right.
  exists (World edge_fs
            [FileObject (Some (String.append "BZh9" (String.append mdv_signature "0000")))
               12 true]),
    (PyFile 1),
    (World edge_fs
       [FileObject (Some (String.append "BZh9" (String.append mdv_signature "0000")))
          12 true;
        FileObject (Some (String.append mdv_signature "0000")) 0 false]).
  repeat split; vm_compute; reflexivity.
Defined.

Lemma read_bz2_twice_witness :
  read (imports:=demo_imports true) "twice.bz2" false demo_kwargs edge_world =
    (Raise (TypeError "Unknown or unsupported file format: BZ2"),
     World edge_fs
       [FileObject (Some "BZh9BZh9CDF000000000") 12 true;
        FileObject (Some "BZh9CDF000000000") 12 true]).
Proof.
  apply (read_bz2_twice (imports:=demo_imports true)
           "twice.bz2" false demo_kwargs edge_world).
  right.
  exists (World edge_fs [FileObject (Some "BZh9BZh9CDF000000000") 12 true]),
    (PyFile 1),
    (World edge_fs
       [FileObject (Some "BZh9BZh9CDF000000000") 12 true;
        FileObject (Some "BZh9CDF000000000") 0 false]).
  repeat split; vm_compute; reflexivity.
Defined.

Lemma read_bz2_corrupt_witness :
  read (imports:=corrupt_bz2_imports) "once.bz2" false demo_kwargs edge_world =
    (Raise (EOFError
              "compressed file ended before the logical end-of-stream was detected"),
     World edge_fs
       [FileObject (Some "BZh9not a stream") 12 true; FileObject None 0 false]).
Proof.
  apply (read_bz2_corrupt (imports:=corrupt_bz2_imports)
           "once.bz2" false demo_kwargs edge_world
           (World edge_fs [FileObject (Some "BZh9not a stream") 12 true])
           "BZh9not a stream");
    vm_compute; reflexivity.
Defined.

Lemma read_legacy_only_listed_witness :
  read (imports:=demo_imports true) "vol.uf" false demo_kwargs demo_world =
    @rsl_read_rsl _ _ _ (demo_imports true) "vol.uf" demo_kwargs
      (World demo_fs [FileObject (Some "UF0000000000000000") 12 true]).
Proof.
  apply (read_legacy_only_listed (imports:=demo_imports true)
           "vol.uf" false demo_kwargs demo_world "UF").
  - left. split; [vm_compute; reflexivity | discriminate].
  - left.
  - reflexivity.
Defined.
